(** * WeingartnerDraineDustMix: grain size distributions and population setup

    A shallow embedding of [SKIRT/core/WeingartnerDraineDustMix.cpp].

    Numbers.  The C++ type [double] is read as the field of real numbers [R]:
    every arithmetic operation is the exact real operation, in the order in
    which the C++ expression associates.  The functions below are therefore
    the formulas the code evaluates; rounding and the special values of
    binary64 are not part of them.  Where a statement depends on the range
    of binary64, it is made about the exact value of a formula: a value of
    magnitude below half the least positive binary64 number has 0 as its
    nearest binary64 number ([rounds_to_zero]).

    State.  [setupSelfBefore] mutates the dust mix by calling
    [addPopulations] of its base class; the object is threaded explicitly. *)

From Stdlib Require Import Reals Lra Lia List ZArith.
Import ListNotations.

Open Scope R_scope.

(** ** The C mathematical library, over the reals *)

Module cmath.

(** [M_PI] of <cmath>. *)
Definition M_PI : R := PI.

(** [log] is the natural logarithm. *)
Definition log (x : R) : R := ln x.

(** [pow(x, y)].  For a positive base it is [exp (y * ln x)]; for an
    integral exponent it is repeated multiplication (or its inverse), which
    also covers a zero or negative base; [pow(0, y)] with [y > 0] is [0].
    The remaining combinations have no real value in C (NaN). *)
Definition pow (x y : R) : R :=
  if Rlt_dec 0 x then Rpower x y
  else if Req_dec_T y (IZR (Int_part y)) then powerRZ x (Int_part y)
  else 0.

(** The integrand of the error function. *)
Definition gauss (t : R) : R := exp (- (t * t)).

Definition gauss_integrable (a b : R) : Riemann_integrable gauss a b.
Proof.
  assert (Hc : continuity gauss) by (unfold gauss; reg).
  destruct (Rle_dec a b) as [Hab | Hab].
  - apply continuity_implies_RiemannInt; [exact Hab | intros t _; apply Hc].
  - apply RiemannInt_P1, continuity_implies_RiemannInt;
      [lra | intros t _; apply Hc].
Qed.

(** [erf(x) = 2/sqrt(pi) * integral of exp(-t^2) for t from 0 to x]. *)
Definition erf (x : R) : R :=
  2 / sqrt PI * RiemannInt (gauss_integrable 0 x).

End cmath.

Import cmath.

(** ** Grain size ranges for each of the dust composition types (in m) *)

Definition amin_gra : R := 0.001e-6.
Definition amax_gra : R := 10.0e-6.
Definition amin_sil : R := 0.001e-6.
Definition amax_sil : R := 10.0e-6.
Definition amin_pah : R := 0.0003548e-6.
Definition amax_pah : R := 0.01e-6.

(** ** The two parameterized size distributions *)

(** The factor [f1] of [dnda_grasil]: the [if (beta>0) ... else ...]. *)
Definition grasil_f1 (a at_ beta : R) : R :=
  if Rlt_dec 0 beta then 1.0 + beta * a / at_
  else 1.0 / (1.0 - beta * a / at_).

(** The factor [f2] of [dnda_grasil]: the [if (a<at) ... else ...]. *)
Definition grasil_f2 (a at_ ac : R) : R :=
  if Rlt_dec a at_ then 1.0
  else exp (- pow ((a - at_) / ac) 3).

(** Parameterized grain size distribution for graphite and silicate.
    ([at] is a reserved word here, hence [at_].) *)
Definition dnda_grasil (a C at_ ac alpha beta : R) : R :=
  let f0 := C / a * pow (a / at_) alpha in
  let f1 := grasil_f1 a at_ beta in
  let f2 := grasil_f2 a at_ ac in
  f0 * f1 * f2.

(** The argument [erffac] of the error function in [dnda_pah], for a centre
    [a0i] and the constant [amin]. *)
Definition pah_erffac (sigma a0i amin : R) : R :=
  3.0 * sigma / sqrt 2.0 + log (a0i / amin) / sqrt 2.0 / sigma.

(** The body of the first loop of [dnda_pah]: the value stored in [B[i]].
    Arrays [a0] and [bc] are lists, read with [nth]. *)
Definition pah_B (sigma : R) (a0 bc : list R) (i : nat) : R :=
  let mC := 1.9944e-26 in
  let rho := 2.24e3 in
  let amin := 3.5e-10 in
  let t0 := 3.0 / pow (2 * M_PI) 1.5 in
  let t1 := exp (-4.5 * sigma * sigma) in
  let t2 := 1.0 / rho / pow (nth i a0 0) 3 / sigma in
  let erffac := pah_erffac sigma (nth i a0 0) amin in
  let t3 := nth i bc 0 * mC / (1.0 + erf erffac) in
  t0 * t1 * t2 * t3.

(** Parameterized grain size distribution for pah (whether neutral or
    ionized).  Both loops run over [i = 0, 1]. *)
Definition dnda_pah (a sigma : R) (a0 bc : list R) : R :=
  let B := map (pah_B sigma a0 bc) (seq 0 2) in
  fold_left
    (fun sum i =>
       let u := log (a / nth i a0 0) / sigma in
       sum + nth i B 0 / a * exp (-0.5 * u * u))
    (seq 0 2) 0.0.

(** ** Milky Way environment with R_V = 3.1 *)

Definition dnda_gra_mwy (a : R) : R :=
  let C := 9.99e-12 in
  let at_ := 0.0107e-6 in
  let ac := 0.428e-6 in
  let alpha := -1.54 in
  let beta := -0.165 in
  dnda_grasil a C at_ ac alpha beta.

Definition dnda_sil_mwy (a : R) : R :=
  let C := 1.00e-13 in
  let at_ := 0.164e-6 in
  let ac := 0.1e-6 in
  let alpha := -2.21 in
  let beta := 0.300 in
  dnda_grasil a C at_ ac alpha beta.

Definition dnda_pah_mwy (a : R) : R :=
  let sigma := 0.4 in
  let a0 := [3.5e-10; 30e-10] in
  let bc := [4.5e-5; 1.5e-5] in
  0.5 * dnda_pah a sigma a0 bc.

(** ** LMC environment *)

Definition dnda_gra_lmc (a : R) : R :=
  let C := 3.51e-15 in
  let at_ := 0.0980e-6 in
  let ac := 0.641e-6 in
  let alpha := -2.99 in
  let beta := 2.46 in
  dnda_grasil a C at_ ac alpha beta.

Definition dnda_sil_lmc (a : R) : R :=
  let C := 1.78e-14 in
  let at_ := 0.184e-6 in
  let ac := 0.1e-6 in
  let alpha := -2.49 in
  let beta := 0.345 in
  dnda_grasil a C at_ ac alpha beta.

Definition dnda_pah_lmc (a : R) : R :=
  let sigma := 0.4 in
  let a0 := [3.5e-10; 30e-10] in
  let bc := [0.75e-5; 0.25e-5] in
  0.5 * dnda_pah a sigma a0 bc.

(** ** The dust mix object and its setup *)

(** Modelled from the spec: the enumeration [Environment] is declared in
    WeingartnerDraineDustMix.hpp.  It has the two enumerators MilkyWay and
    LMC, in this order; a C++ enumeration is carried by its underlying
    integer, and [==] compares these integers. *)
Definition Environment : Type := Z.
Definition MilkyWay : Environment := 0%Z.
Definition LMC : Environment := 1%Z.

Definition recognized (env : Environment) : Prop :=
  env = MilkyWay \/ env = LMC.

(** The four grain composition classes instantiated by the setup. *)
Inductive GrainComposition : Type :=
| DraineGraphiteGrainComposition
| DraineSilicateGrainComposition
| DraineNeutralPAHGrainComposition
| DraineIonizedPAHGrainComposition.

(** The arguments of one call of [addPopulations]. *)
Record PopulationsCall : Type := mkCall {
  gc : GrainComposition;
  amin : R;
  amax : R;
  dnda : R -> R;
  numSizes : Z
}.

(** The fields of the object: the three discoverable counts and the
    environment, next to the state of the base class [MultiGrainDustMix],
    which is the sequence of [addPopulations] calls it has received. *)
Record WeingartnerDraineDustMix : Type := mkMix {
  _environment : Environment;
  _numGraphiteSizes : Z;
  _numSilicateSizes : Z;
  _numPAHSizes : Z;
  populations : list PopulationsCall
}.

(** Modelled from the spec: [MultiGrainDustMix::addPopulations] belongs to
    the base class, outside this file.  It receives the composition, the
    size range, the distribution and the number of bins; the call is
    recorded after the earlier ones. *)
Definition addPopulations (c : GrainComposition) (lo hi : R)
    (f : R -> R) (n : Z) (self : WeingartnerDraineDustMix)
  : WeingartnerDraineDustMix :=
  mkMix (_environment self) (_numGraphiteSizes self)
        (_numSilicateSizes self) (_numPAHSizes self)
        (populations self ++ [mkCall c lo hi f n]).

(** Modelled from the spec: [MultiGrainDustMix::setupSelfBefore] of the base
    class registers nothing. *)
Definition MultiGrainDustMix_setupSelfBefore
    (self : WeingartnerDraineDustMix) : WeingartnerDraineDustMix := self.

Definition setupSelfBefore (self : WeingartnerDraineDustMix)
  : WeingartnerDraineDustMix :=
  let self := MultiGrainDustMix_setupSelfBefore self in
  let self :=
    addPopulations DraineGraphiteGrainComposition amin_gra amax_gra
      (if Z.eqb (_environment self) MilkyWay then dnda_gra_mwy
       else dnda_gra_lmc)
      (_numGraphiteSizes self) self in
  let self :=
    addPopulations DraineSilicateGrainComposition amin_sil amax_sil
      (if Z.eqb (_environment self) MilkyWay then dnda_sil_mwy
       else dnda_sil_lmc)
      (_numSilicateSizes self) self in
  let self :=
    addPopulations DraineNeutralPAHGrainComposition amin_pah amax_pah
      (if Z.eqb (_environment self) MilkyWay then dnda_pah_mwy
       else dnda_pah_lmc)
      (_numPAHSizes self) self in
  let self :=
    addPopulations DraineIonizedPAHGrainComposition amin_pah amax_pah
      (if Z.eqb (_environment self) MilkyWay then dnda_pah_mwy
       else dnda_pah_lmc)
      (_numPAHSizes self) self in
  self.

(** ** The formulas of the specification

    Written from the words of the specification, to be compared with the
    functions above.  A real power is [Rpower]; a cube is the product. *)

Definition dnda_grasil_spec (a C a_t a_c alpha beta : R) : R :=
  let f0 := (C / a) * Rpower (a / a_t) alpha in
  let f1 := if Rlt_dec 0 beta then 1 + beta * a / a_t
            else 1 / (1 - beta * a / a_t) in
  let f2 := if Rlt_dec a a_t then 1
            else exp (- ((a - a_t) / a_c) ^ 3) in
  f0 * f1 * f2.

Definition pah_B_spec (sigma a0i bci : R) : R :=
  let m_C := 1.9944e-26 in
  let rho := 2.24e3 in
  let a_min := 3.5e-10 in
  (3 / Rpower (2 * PI) 1.5) * exp (-4.5 * sigma ^ 2)
  * (1 / (rho * a0i ^ 3 * sigma))
  * (bci * m_C
     / (1 + erf (3 * sigma / sqrt 2 + ln (a0i / a_min) / (sqrt 2 * sigma)))).

Definition pah_mode_spec (a sigma a0i bci : R) : R :=
  (pah_B_spec sigma a0i bci / a) * exp (-0.5 * (ln (a / a0i) / sigma) ^ 2).

Definition dnda_pah_spec (a sigma a00 a01 bc0 bc1 : R) : R :=
  pah_mode_spec a sigma a00 bc0 + pah_mode_spec a sigma a01 bc1.

(** Selection of the distribution registered for a composition. *)
Definition GrainComposition_eqb (c d : GrainComposition) : bool :=
  match c, d with
  | DraineGraphiteGrainComposition, DraineGraphiteGrainComposition
  | DraineSilicateGrainComposition, DraineSilicateGrainComposition
  | DraineNeutralPAHGrainComposition, DraineNeutralPAHGrainComposition
  | DraineIonizedPAHGrainComposition, DraineIonizedPAHGrainComposition => true
  | _, _ => false
  end.

Definition dnda_for (c : GrainComposition) (calls : list PopulationsCall)
  : option (R -> R) :=
  option_map dnda (find (fun p => GrainComposition_eqb (gc p) c) calls).

(** The populations a fresh dust mix holds after its setup. *)
Definition setup_calls (env : Environment) (nG nS nP : Z)
  : list PopulationsCall :=
  populations (setupSelfBefore (mkMix env nG nS nP [])).

(** An environment value [env] is served with the tables of [env'] when the
    setup registers the same populations for both. *)
Definition defaults_to (env env' : Environment) : Prop :=
  forall nG nS nP, setup_calls env nG nS nP = setup_calls env' nG nS nP.

(** The four calls a setup adds for given distributions and counts. *)
Definition four_calls (gra sil pah : R -> R) (nG nS nP : Z)
  : list PopulationsCall :=
  [ mkCall DraineGraphiteGrainComposition 0.001e-6 10e-6 gra nG;
    mkCall DraineSilicateGrainComposition 0.001e-6 10e-6 sil nS;
    mkCall DraineNeutralPAHGrainComposition 0.0003548e-6 0.01e-6 pah nP;
    mkCall DraineIonizedPAHGrainComposition 0.0003548e-6 0.01e-6 pah nP ].


(** ** The range of binary64

    The binary64 numbers are the reals [m * 2^e] with [|m| < 2^53] and
    [-1074 <= e <= 971]; the least positive one is [2^-1074]. *)

Definition is_b64 (d : R) : Prop :=
  exists m e : Z,
    (Z.abs m < 2 ^ 53)%Z /\ (-1074 <= e <= 971)%Z /\ d = IZR m * powerRZ 2 e.

Definition nearest_b64 (x d : R) : Prop :=
  is_b64 d /\ forall d' : R, is_b64 d' -> Rabs (x - d) <= Rabs (x - d').

Definition b64_least : R := / 2 ^ 1074.

(** The exact value [x] is too small for any binary64 number but 0. *)
Definition rounds_to_zero (x : R) : Prop := Rabs x < b64_least / 2.

(** * Properties *)

(** ** The library functions *)

Section CMath.

Lemma pow_positive_base (x y : R) : 0 < x -> pow x y = Rpower x y.
Proof.
  intros Hx. unfold pow. destruct (Rlt_dec 0 x); [reflexivity | contradiction].
Qed.

Lemma Int_part_3 : Int_part 3 = 3%Z.
Proof. symmetry. apply Int_part_spec. lra. Qed.

Lemma pow_cube (x : R) : pow x 3 = x ^ 3.
Proof.
  unfold pow. destruct (Rlt_dec 0 x) as [Hx | Hx].
  - replace 3 with (INR 3) by (simpl; lra). now apply Rpower_pow.
  - rewrite Int_part_3.
    destruct (Req_dec_T 3 (IZR 3)) as [_ | Hn]; [| now elim Hn].
    now rewrite (pow_powerRZ x 3).
Qed.




End CMath.

(** ** The grain-silicate form *)

(** C1.  For a radius [a > 0] and [a_t > 0], [a_c > 0], the value of
    [dnda_grasil] is [f0 * f1 * f2] with [f0 = (C/a) * (a/a_t)^alpha],
    [f1 = 1 + beta*a/a_t] when [beta > 0] and [1/(1 - beta*a/a_t)] otherwise,
    [f2 = 1] when [a < a_t] and [exp(-((a - a_t)/a_c)^3)] when [a >= a_t]. *)
Theorem dnda_grasil_formula (a C a_t a_c alpha beta : R) :
  0 < a -> 0 < a_t -> 0 < a_c ->
  dnda_grasil a C a_t a_c alpha beta
  = dnda_grasil_spec a C a_t a_c alpha beta.
Proof.
  intros Ha Hat Hac.
  unfold dnda_grasil, dnda_grasil_spec, grasil_f1, grasil_f2.
  rewrite pow_positive_base by (apply Rdiv_lt_0_compat; assumption).
  rewrite pow_cube.
  destruct (Rlt_dec 0 beta), (Rlt_dec a a_t);
    repeat match goal with |- context [1.0] => replace 1.0 with 1 by lra end;
    reflexivity.
Qed.

Lemma dnda_grasil_formula_witness :
  dnda_grasil 0.01e-6 9.99e-12 0.0107e-6 0.428e-6 (-1.54) (-0.165)
  = dnda_grasil_spec 0.01e-6 9.99e-12 0.0107e-6 0.428e-6 (-1.54) (-0.165).
Proof. apply dnda_grasil_formula; lra. Defined.

(** ** The PAH form *)

Lemma sqrt2_gt_0 : 0 < sqrt 2.
Proof. apply sqrt_lt_R0. lra. Qed.

(** Both loops of [dnda_pah], unrolled on arrays of two elements. *)
Lemma dnda_pah_unroll (a sigma a00 a01 bc0 bc1 : R) :
  dnda_pah a sigma [a00; a01] [bc0; bc1]
  = 0.0
    + pah_B sigma [a00; a01] [bc0; bc1] 0 / a
      * exp (-0.5 * (log (a / a00) / sigma) * (log (a / a00) / sigma))
    + pah_B sigma [a00; a01] [bc0; bc1] 1 / a
      * exp (-0.5 * (log (a / a01) / sigma) * (log (a / a01) / sigma)).
Proof. reflexivity. Qed.

(** The normalization stored in [B[i]] is the constant of the
    specification, for a positive width and a positive centre. *)
Lemma pah_B_formula (sigma : R) (a0 bc : list R) (i : nat) :
  0 < sigma -> 0 < nth i a0 0 ->
  pah_B sigma a0 bc i = pah_B_spec sigma (nth i a0 0) (nth i bc 0).
Proof.
  intros Hs Ha0. unfold pah_B, pah_B_spec, pah_erffac, M_PI, log.
  rewrite pow_cube.
  rewrite pow_positive_base by (apply Rmult_lt_0_compat; [lra | apply PI_RGT_0]).
  pose proof sqrt2_gt_0 as Hq.
  replace 2.0 with 2 by lra.
  replace (ln (nth i a0 0 / 3.5e-10) / sqrt 2 / sigma)
    with (ln (nth i a0 0 / 3.5e-10) / (sqrt 2 * sigma))
    by (field; split; lra).
  replace 3.0 with 3 by lra. replace 1.0 with 1 by lra.
  assert (Hc : 0 < nth i a0 0 ^ 3) by (apply pow_lt; assumption).
  replace (1 / 2.24e3 / nth i a0 0 ^ 3 / sigma)
    with (1 / (2.24e3 * nth i a0 0 ^ 3 * sigma))
    by (field; repeat split; lra).
  replace (-4.5 * sigma * sigma) with (-4.5 * sigma ^ 2) by ring.
  reflexivity.
Qed.

(** C2.  For [a > 0], [sigma > 0], positive centres and positive abundances,
    [dnda_pah] is the sum over the two modes of
    [(B[i]/a) * exp(-0.5*(ln(a/a0[i])/sigma)^2)], where [B[i]] is the
    normalization constant of the specification, with [m_C = 1.9944e-26],
    [rho = 2.24e3] and [a_min = 3.5e-10]. *)
Theorem dnda_pah_formula (a sigma a00 a01 bc0 bc1 : R) :
  0 < a -> 0 < sigma -> 0 < a00 -> 0 < a01 -> 0 < bc0 -> 0 < bc1 ->
  dnda_pah a sigma [a00; a01] [bc0; bc1]
  = dnda_pah_spec a sigma a00 a01 bc0 bc1.
Proof.
  intros Ha Hs H0 H1 _ _.
  rewrite dnda_pah_unroll.
  rewrite (pah_B_formula sigma [a00; a01] [bc0; bc1] 0) by assumption.
  rewrite (pah_B_formula sigma [a00; a01] [bc0; bc1] 1) by assumption.
  unfold dnda_pah_spec, pah_mode_spec, log. simpl nth.
  replace (-0.5 * (ln (a / a00) / sigma) * (ln (a / a00) / sigma))
    with (-0.5 * (ln (a / a00) / sigma) ^ 2) by ring.
  replace (-0.5 * (ln (a / a01) / sigma) * (ln (a / a01) / sigma))
    with (-0.5 * (ln (a / a01) / sigma) ^ 2) by ring.
  replace 0.0 with 0 by lra. ring.
Qed.

Lemma dnda_pah_formula_witness :
  dnda_pah 1e-9 0.4 [3.5e-10; 30e-10] [4.5e-5; 1.5e-5]
  = dnda_pah_spec 1e-9 0.4 3.5e-10 30e-10 4.5e-5 1.5e-5.
Proof. apply dnda_pah_formula; lra. Defined.

(** ** The setup *)

Lemma setupSelfBefore_populations (self : WeingartnerDraineDustMix) :
  populations (setupSelfBefore self)
  = populations self
    ++ four_calls
         (if Z.eqb (_environment self) MilkyWay then dnda_gra_mwy
          else dnda_gra_lmc)
         (if Z.eqb (_environment self) MilkyWay then dnda_sil_mwy
          else dnda_sil_lmc)
         (if Z.eqb (_environment self) MilkyWay then dnda_pah_mwy
          else dnda_pah_lmc)
         (_numGraphiteSizes self) (_numSilicateSizes self)
         (_numPAHSizes self).
Proof.
  unfold setupSelfBefore, MultiGrainDustMix_setupSelfBefore, addPopulations,
    four_calls; simpl.
  repeat rewrite <- app_assoc. simpl.
  unfold amin_gra, amax_gra, amin_sil, amax_sil, amin_pah, amax_pah.
  replace 10.0e-6 with 10e-6 by lra.
  reflexivity.
Qed.

(** C3.  For either environment and any three counts, the setup calls
    [addPopulations] exactly four times after whatever was registered
    before, in the order graphite, silicate, neutral PAH, ionized PAH; each
    call carries the size range of its material (0.001e-6 to 10e-6 for
    graphite and silicate, 0.0003548e-6 to 0.01e-6 for both PAH kinds), the
    distribution of that environment and material, and the count of the
    material family, the PAH count serving both charge states. *)
Theorem setupSelfBefore_four_calls (nG nS nP : Z)
    (before : list PopulationsCall) :
  populations (setupSelfBefore (mkMix MilkyWay nG nS nP before))
  = before ++ four_calls dnda_gra_mwy dnda_sil_mwy dnda_pah_mwy nG nS nP
  /\
  populations (setupSelfBefore (mkMix LMC nG nS nP before))
  = before ++ four_calls dnda_gra_lmc dnda_sil_lmc dnda_pah_lmc nG nS nP.
Proof.
  split; rewrite setupSelfBefore_populations; reflexivity.
Qed.

(** C4.  In either environment the distribution registered for the neutral
    PAH composition and the one registered for the ionized PAH composition
    are the same function, and at every radius it is 0.5 times [dnda_pah]
    with the PAH table of that environment. *)
Theorem pah_neutral_ionized_same (nG nS nP : Z) :
  (exists f : R -> R,
      dnda_for DraineNeutralPAHGrainComposition
        (setup_calls MilkyWay nG nS nP) = Some f
      /\ dnda_for DraineIonizedPAHGrainComposition
           (setup_calls MilkyWay nG nS nP) = Some f
      /\ forall a : R,
          f a = 0.5 * dnda_pah a 0.4 [3.5e-10; 30e-10] [4.5e-5; 1.5e-5])
  /\
  (exists f : R -> R,
      dnda_for DraineNeutralPAHGrainComposition
        (setup_calls LMC nG nS nP) = Some f
      /\ dnda_for DraineIonizedPAHGrainComposition
           (setup_calls LMC nG nS nP) = Some f
      /\ forall a : R,
          f a = 0.5 * dnda_pah a 0.4 [3.5e-10; 30e-10] [0.75e-5; 0.25e-5]).
Proof.
  split.
  - exists dnda_pah_mwy. repeat split.
  - exists dnda_pah_lmc. repeat split.
Qed.

(** The setup has no failing path: the conditional expressions send every
    environment value other than MilkyWay to the LMC functions.  The value
    [2] is neither enumerator, and it is served with the LMC tables. *)
Lemma unrecognized_environment_defaults :
  ~ (forall env : Environment,
        ~ recognized env ->
        ~ exists env' : Environment, recognized env' /\ defaults_to env env').
Proof.
  intros H. apply (H 2%Z).
  - unfold recognized, MilkyWay, LMC. lia.
  - exists LMC. split; [right; reflexivity |].
    intros nG nS nP. reflexivity.
Qed.

(** C6, amended.  The setup never fails: for every environment value other
    than MilkyWay, recognized or not, it registers the four populations
    with the LMC distributions. *)
Theorem setupSelfBefore_not_MilkyWay (env : Environment) (nG nS nP : Z)
    (before : list PopulationsCall) :
  env <> MilkyWay ->
  populations (setupSelfBefore (mkMix env nG nS nP before))
  = before ++ four_calls dnda_gra_lmc dnda_sil_lmc dnda_pah_lmc nG nS nP.
Proof.
  intros Henv. rewrite setupSelfBefore_populations. simpl.
  destruct (Z.eqb_spec env MilkyWay) as [Heq | _]; [contradiction |].
  reflexivity.
Qed.

Lemma setupSelfBefore_not_MilkyWay_witness :
  populations (setupSelfBefore (mkMix 2%Z 5 5 5 []))
  = [] ++ four_calls dnda_gra_lmc dnda_sil_lmc dnda_pah_lmc 5 5 5.
Proof.
  apply setupSelfBefore_not_MilkyWay. unfold MilkyWay. lia.
Defined.

(** ** Positivity *)

Section Positivity.

Variables a at_ : R.
Hypothesis a_pos : 0 < a.
Hypothesis at_pos : 0 < at_.

Lemma grasil_f1_denominator (beta : R) :
  beta <= 0 -> 1 <= 1.0 - beta * a / at_.
Proof.
  intros Hb.
  assert (0 <= - beta * (a / at_)).
  { apply Rmult_le_pos; [lra |]. left. now apply Rdiv_lt_0_compat. }
  unfold Rdiv in *. nra.
Qed.

Lemma grasil_f1_gt_0 (beta : R) : 0 < grasil_f1 a at_ beta.
Proof.
  unfold grasil_f1. destruct (Rlt_dec 0 beta) as [Hb | Hb].
  - assert (0 < beta * (a / at_)).
    { apply Rmult_lt_0_compat; [exact Hb |]. now apply Rdiv_lt_0_compat. }
    unfold Rdiv in *. nra.
  - pose proof (grasil_f1_denominator beta ltac:(lra)).
    apply Rdiv_lt_0_compat; lra.
Qed.

Lemma grasil_f2_gt_0 (ac : R) : 0 < grasil_f2 a at_ ac.
Proof.
  unfold grasil_f2. destruct (Rlt_dec a at_); [lra | apply exp_pos].
Qed.


End Positivity.

Section PAHPositivity.

Variable sigma : R.
Hypothesis sigma_pos : 0 < sigma.




End PAHPositivity.


(** ** The cut-off of the grain-silicate form *)



Section Cutoff.

Variables C at_ ac alpha beta : R.
Hypothesis C_pos : 0 < C.
Hypothesis at_pos : 0 < at_.
Hypothesis ac_pos : 0 < ac.

(** At the transition radius the power law and the cut-off are both 1. *)
Lemma dnda_grasil_at_transition :
  dnda_grasil at_ C at_ ac alpha beta = C / at_ * grasil_f1 at_ at_ beta.
Proof.
  unfold dnda_grasil, grasil_f2. cbv zeta.
  destruct (Rlt_dec at_ at_) as [Habs | _]; [lra |].
  rewrite pow_cube.
  assert (Hone : at_ / at_ = 1) by (unfold Rdiv; apply Rinv_r; lra).
  rewrite Hone, pow_positive_base by lra.
  unfold Rpower. rewrite ln_1, Rmult_0_r, exp_0.
  replace (- ((at_ - at_) / ac) ^ 3) with 0 by (unfold Rdiv; ring).
  rewrite exp_0. ring.
Qed.



End Cutoff.



(** The radius [a_t + 3*a_c] itself is not far enough when the power-law
    index is large and positive: with [a_t = a_c = 1] and [alpha = 40] the
    density at [a = 4] exceeds the density at [a_t]. *)
Remark cutoff_margin_needed :
  ~ (dnda_grasil 4 1 1 1 40 0 * 1000 < dnda_grasil 1 1 1 1 40 0).
Proof.
  assert (Hf1 : forall a, grasil_f1 a 1 0 = 1).
  { intros a. unfold grasil_f1. destruct (Rlt_dec 0 0); [lra |].
    replace 1.0 with 1 by lra. field. }
  assert (H1 : dnda_grasil 1 1 1 1 40 0 = 1).
  { rewrite dnda_grasil_at_transition by lra. rewrite Hf1. field. }
  assert (H4 : dnda_grasil 4 1 1 1 40 0 = 1 / 4 * 4 ^ 40 * exp (- 27)).
  { unfold dnda_grasil, grasil_f2. cbv zeta. rewrite Hf1.
    destruct (Rlt_dec 4 1); [lra |].
    rewrite pow_cube, pow_positive_base by lra.
    replace (4 / 1) with 4 by field.
    replace 40 with (INR 40) at 1 by (rewrite INR_IZR_INZ; reflexivity).
    rewrite Rpower_pow by lra.
    replace (- ((4 - 1) / 1) ^ 3) with (- 27) by field.
    replace 1.0 with 1 by lra. ring. }
  rewrite H1, H4.
  assert (He3 : exp 3 <= 27).
  { replace 3 with (1 + 1 + 1) by lra. rewrite !exp_plus.
    pose proof exp_le_3. pose proof (exp_pos 1). nra. }
  assert (He9 : exp 9 <= 27 * 27 * 27).
  { replace 9 with (3 + 3 + 3) by lra. rewrite !exp_plus.
    pose proof (exp_pos 3). nra. }
  assert (He27 : exp 27 <= 27 ^ 9).
  { replace 27 with (9 + 9 + 9) at 1 by lra. rewrite !exp_plus.
    pose proof (exp_pos 9).
    replace (27 ^ 9) with ((27 * 27 * 27) * (27 * 27 * 27) * (27 * 27 * 27))
      by ring.
    assert (exp 9 * exp 9 <= (27 * 27 * 27) * (27 * 27 * 27)) by nra.
    apply Rmult_le_compat; nra. }
  assert (Hinv : exp (- 27) * exp 27 = 1)
    by (rewrite <- exp_plus; replace (- 27 + 27) with 0 by lra; apply exp_0).
  pose proof (exp_pos (- 27)) as Hp.
  assert (Hbig : 27 ^ 9 <= 1 / 4 * 4 ^ 40 * 1000) by lra.
  intros Hlt.
  assert (exp (- 27) * exp 27 <= exp (- 27) * (1 / 4 * 4 ^ 40 * 1000))
    by (apply Rmult_le_compat_l; lra).
  lra.
Qed.

(** ** The setup, for any environment value and when repeated *)

(** X10.  The setup keeps the environment and the three counts, and it is
    not idempotent: it appends four calls to the earlier ones each time, so
    a second setup registers the same batch of four once more. *)
Theorem setupSelfBefore_twice (self : WeingartnerDraineDustMix) :
  _environment (setupSelfBefore self) = _environment self
  /\ _numGraphiteSizes (setupSelfBefore self) = _numGraphiteSizes self
  /\ _numSilicateSizes (setupSelfBefore self) = _numSilicateSizes self
  /\ _numPAHSizes (setupSelfBefore self) = _numPAHSizes self
  /\ exists batch : list PopulationsCall,
       length batch = 4%nat
       /\ populations (setupSelfBefore self) = populations self ++ batch
       /\ populations (setupSelfBefore (setupSelfBefore self))
          = populations self ++ batch ++ batch.
Proof.
  repeat split.
  eexists. split; [| split].
  2: apply setupSelfBefore_populations.
  - reflexivity.
  - rewrite setupSelfBefore_populations, setupSelfBefore_populations.
    rewrite <- app_assoc. reflexivity.
Qed.


(** * The range of binary64 *)

Lemma b64_least_pos : 0 < b64_least.
Proof. unfold b64_least. apply Rinv_0_lt_compat, pow_lt. lra. Qed.

Lemma powerRZ_2_lower (e : Z) : (-1074 <= e)%Z -> b64_least <= powerRZ 2 e.
Proof.
  intros He. replace e with ((e + 1074) + (-1074))%Z by lia.
  rewrite powerRZ_add by lra.
  replace (powerRZ 2 (-1074)) with b64_least by reflexivity.
  destruct (Z_of_nat_complete (e + 1074) ltac:(lia)) as [n ->].
  rewrite <- pow_powerRZ.
  pose proof b64_least_pos. pose proof (pow_R1_Rle 2 n ltac:(lra)). nra.
Qed.

(** A binary64 number other than 0 has magnitude at least [2^-1074]. *)
Lemma b64_nonzero_magnitude (d : R) :
  is_b64 d -> d <> 0 -> b64_least <= Rabs d.
Proof.
  intros (m & e & _ & [He _] & ->) Hd.
  assert (Hm : m <> 0%Z) by (intros ->; apply Hd; ring).
  rewrite Rabs_mult, Rabs_Zabs.
  assert (1 <= IZR (Z.abs m)) by (apply IZR_le; lia).
  pose proof (powerRZ_2_lower e He) as Hp. pose proof b64_least_pos.
  rewrite (Rabs_pos_eq (powerRZ 2 e)) by lra. nra.
Qed.

(** The only binary64 number nearest to such a small value is 0. *)
Lemma rounds_to_zero_nearest (x d : R) :
  rounds_to_zero x -> nearest_b64 x d -> d = 0.
Proof.
  intros Hx [Hd Hnear].
  destruct (Req_dec_T d 0) as [-> | Hnz]; [reflexivity | exfalso].
  pose proof (b64_nonzero_magnitude d Hd Hnz) as Hmag.
  assert (H0 : is_b64 0).
  { exists 0%Z, 0%Z. repeat split; try lia. simpl. ring. }
  specialize (Hnear 0 H0). unfold rounds_to_zero in Hx.
  replace (x - 0) with x in Hnear by ring.
  pose proof (Rabs_triang (d - x) x) as Ht.
  replace (d - x + x) with d in Ht by ring.
  rewrite (Rabs_minus_sym d x) in Ht. lra.
Qed.

Lemma exp_mult_nat (n : nat) (t : R) : exp (INR n * t) = exp t ^ n.
Proof.
  induction n as [| n IH].
  - simpl. rewrite Rmult_0_l. apply exp_0.
  - rewrite S_INR, Rmult_plus_distr_r, Rmult_1_l, exp_plus, IH. simpl. ring.
Qed.

Lemma exp_1_lower : 2.7 <= exp 1.
Proof.
  replace 1 with (INR 128 * (1 / 128)) at 1
    by (rewrite INR_IZR_INZ; simpl; lra).
  rewrite exp_mult_nat.
  apply Rle_trans with ((1 + 1 / 128) ^ 128); [lra |].
  apply pow_incr. pose proof (exp_ineq1_le (1 / 128)). lra.
Qed.

(** [exp] of an argument below -760 is under half the least positive
    binary64 number (the exact bound is about -745.1). *)
Lemma exp_rounds_to_zero (x : R) : 760 <= x -> rounds_to_zero (exp (- x)).
Proof.
  intros Hx. unfold rounds_to_zero, b64_least.
  rewrite Rabs_pos_eq by (left; apply exp_pos).
  assert (Hbig : 2 * 2 ^ 1074 < exp 760).
  { replace 760 with (INR 760 * 1) by (rewrite INR_IZR_INZ; simpl; lra).
    rewrite exp_mult_nat.
    apply Rlt_le_trans with (2.7 ^ 760); [lra |].
    apply pow_incr. pose proof exp_1_lower. lra. }
  assert (Hmono : exp 760 <= exp x).
  { destruct Hx as [Hlt | <-]; [left; now apply exp_increasing | lra]. }
  assert (Hp : 0 < 2 * 2 ^ 1074) by (apply Rmult_lt_0_compat; [lra | apply pow_lt; lra]).
  rewrite exp_Ropp.
  apply Rlt_le_trans with (/ (2 * 2 ^ 1074)).
  - apply Rinv_lt_contravar; [| lra].
    apply Rmult_lt_0_compat; [exact Hp | apply exp_pos].
  - right. field.
Qed.



(** ** Positivity of the registered distributions *)




(** ** The reciprocal branch of [f1] *)

(** For [a = 1e308], [a_t = 1e-320] and [beta = -1], all within the
    claim's hypotheses, the exact value of [f1] is [1 / (1 + 1e628)], under
    half the least positive binary64 number: the code returns 0 (its
    quotient [beta*a/at] overflows), so [0 < f1] fails. *)
Lemma grasil_f1_rounds_to_zero :
  0 < 1e308 /\ 0 < 1e-320 /\ -1 <= 0
  /\ rounds_to_zero (grasil_f1 1e308 1e-320 (-1)).
Proof.
  repeat split; try lra.
  unfold grasil_f1. destruct (Rlt_dec 0 (-1)); [lra |].
  unfold rounds_to_zero, b64_least.
  assert (HD : 1.0 - -1 * 1e308 / 1e-320 = 1 + 1e628) by lra.
  rewrite HD. unfold Rdiv. replace 1.0 with 1 by lra. rewrite Rmult_1_l.
  rewrite Rabs_pos_eq by (left; apply Rinv_0_lt_compat; lra).
  assert (Hp : 0 < 2 * 2 ^ 1074)
    by (apply Rmult_lt_0_compat; [lra | apply pow_lt; lra]).
  apply Rlt_le_trans with (/ (2 * 2 ^ 1074)).
  - apply Rinv_lt_contravar; [| lra]. apply Rmult_lt_0_compat; lra.
  - right. field.
Qed.

(** C9, amended.  For [a > 0], [a_t > 0] and [beta <= 0] the function
    takes the reciprocal branch of [f1]; its denominator [1 - beta*a/a_t]
    is at least 1, so the division is never by zero, and [0 <= f1 <= 1];
    the denominator can vanish only at a negative radius.  With the Milky
    Way graphite table ([a_t = 0.0107e-6], [beta = -0.165]) and a radius of
    the graphite range, [f1] is at least 1/156, hence strictly positive. *)
Theorem grasil_f1_reciprocal_safe (a at_ beta : R) :
  0 < a -> 0 < at_ -> beta <= 0 ->
  grasil_f1 a at_ beta = 1.0 / (1.0 - beta * a / at_)
  /\ 1 <= 1.0 - beta * a / at_
  /\ 0 <= grasil_f1 a at_ beta <= 1
  /\ (forall a' : R, 1.0 - beta * a' / at_ = 0 -> a' < 0)
  /\ (forall r : R, amin_gra <= r <= amax_gra ->
        / 156 <= grasil_f1 r 0.0107e-6 (-0.165)).
Proof.
  intros Ha Hat Hb.
  pose proof (grasil_f1_denominator a at_ Ha Hat beta Hb) as Hden.
  assert (Heq : grasil_f1 a at_ beta = 1.0 / (1.0 - beta * a / at_)).
  { unfold grasil_f1. destruct (Rlt_dec 0 beta); [lra | reflexivity]. }
  split; [exact Heq |]. split; [exact Hden |]. split; [| split].
  - split; [left; now apply grasil_f1_gt_0 |].
    rewrite Heq. apply Rmult_le_reg_r with (1.0 - beta * a / at_); [lra |].
    unfold Rdiv at 1. rewrite Rmult_assoc, Rinv_l by lra. lra.
  - intros a' Hz.
    destruct (Rlt_dec a' 0) as [Hneg | Hnn]; [exact Hneg | exfalso].
    assert (0 <= - beta * (a' * / at_)).
    { apply Rmult_le_pos; [lra |]. apply Rmult_le_pos; [lra |].
      left. now apply Rinv_0_lt_compat. }
    unfold Rdiv in Hz. nra.
  - unfold amin_gra, amax_gra. intros r [Hlo Hhi].
    unfold grasil_f1. destruct (Rlt_dec 0 (-0.165)); [lra |].
    assert (Hd : 1 <= 1.0 - -0.165 * r / 0.0107e-6 <= 156) by lra.
    unfold Rdiv at 1. replace 1.0 with 1 at 1 by lra. rewrite Rmult_1_l.
    apply Rinv_le_contravar; lra.
Qed.

Lemma grasil_f1_reciprocal_safe_witness :
  grasil_f1 0.01e-6 0.0107e-6 (-0.165)
  = 1.0 / (1.0 - (-0.165) * 0.01e-6 / 0.0107e-6)
  /\ 1 <= 1.0 - (-0.165) * 0.01e-6 / 0.0107e-6
  /\ 0 <= grasil_f1 0.01e-6 0.0107e-6 (-0.165) <= 1
  /\ (forall a' : R, 1.0 - (-0.165) * a' / 0.0107e-6 = 0 -> a' < 0)
  /\ (forall r : R, amin_gra <= r <= amax_gra ->
        / 156 <= grasil_f1 r 0.0107e-6 (-0.165)).
Proof. apply grasil_f1_reciprocal_safe; lra. Defined.

(** ** The normalization constants of the PAH form *)




(** ** The reference value of the Milky Way graphite distribution *)

Lemma exp_le_inv_1_minus (t : R) : t < 1 -> exp t <= / (1 - t).
Proof.
  intros Ht. pose proof (exp_ineq1_le (- t)) as H. pose proof (exp_pos t).
  rewrite exp_Ropp in H.
  apply Rmult_le_reg_r with (1 - t); [lra |].
  rewrite Rinv_l by lra.
  apply Rmult_le_reg_r with (/ exp t); [now apply Rinv_0_lt_compat |].
  rewrite Rmult_assoc, (Rmult_comm (1 - t)), <- Rmult_assoc, Rinv_r by lra.
  lra.
Qed.

Lemma exp_double_lower (t t' L L' : R) :
  L <= exp t -> t' = t + t -> 0 <= L -> L' <= L * L -> L' <= exp t'.
Proof.
  intros HL -> H0 HL'. rewrite exp_plus. nra.
Qed.

Lemma exp_double_upper (t t' U U' : R) :
  exp t <= U -> t' = t + t -> U * U <= U' -> exp t' <= U'.
Proof.
  intros HU -> HU'. rewrite exp_plus. pose proof (exp_pos t). nra.
Qed.

(** Bounds obtained by 28 squarings from [1 + t <= exp t <= 1 / (1 - t)]. *)
Lemma exp_ln107_lo_upper : exp (0.0676586484538) <= 1.06999999998770763868500417905233.
Proof.
  assert (H0 : exp (0.0676586484538 / 2 ^ 28) <= / (1 - 0.0676586484538 / 2 ^ 28))
    by (apply exp_le_inv_1_minus; lra).
  assert (H1 : exp (0.0676586484538 / 2 ^ 27) <= 1.00000000050409621357455738913101)
    by (apply (exp_double_upper _ _ _ _ H0); lra).
  assert (H2 : exp (0.0676586484538 / 2 ^ 26) <= 1.00000000100819242740322777080223)
    by (apply (exp_double_upper _ _ _ _ H1); lra).
  clear H1.
  assert (H3 : exp (0.0676586484538 / 2 ^ 25) <= 1.00000000201638485582290751227768)
    by (apply (exp_double_upper _ _ _ _ H2); lra).
  clear H2.
  assert (H4 : exp (0.0676586484538 / 2 ^ 24) <= 1.00000000403276971571162291134733)
    by (apply (exp_double_upper _ _ _ _ H3); lra).
  clear H3.
  assert (H5 : exp (0.0676586484538 / 2 ^ 23) <= 1.00000000806553944768647740265547)
    by (apply (exp_double_upper _ _ _ _ H4); lra).
  clear H4.
  assert (H6 : exp (0.0676586484538 / 2 ^ 22) <= 1.00000001613107896042588138749763)
    by (apply (exp_double_upper _ _ _ _ H5); lra).
  clear H5.
  assert (H7 : exp (0.0676586484538 / 2 ^ 21) <= 1.0000000322621581810634712024898)
    by (apply (exp_double_upper _ _ _ _ H6); lra).
  clear H6.
  assert (H8 : exp (0.0676586484538 / 2 ^ 20) <= 1.00000006452431740297379290494027)
    by (apply (exp_double_upper _ _ _ _ H7); lra).
  clear H7.
  assert (H9 : exp (0.0676586484538 / 2 ^ 19) <= 1.00000012904863896933512212958722)
    by (apply (exp_double_upper _ _ _ _ H8); lra).
  clear H8.
  assert (H10 : exp (0.0676586484538 / 2 ^ 18) <= 1.00000025809729459222146409697394)
    by (apply (exp_double_upper _ _ _ _ H9); lra).
  clear H9.
  assert (H11 : exp (0.0676586484538 / 2 ^ 17) <= 1.0000005161946557986564040178989)
    by (apply (exp_double_upper _ _ _ _ H10); lra).
  clear H10.
  assert (H12 : exp (0.0676586484538 / 2 ^ 16) <= 1.00000103238957805423548312915731)
    by (apply (exp_double_upper _ _ _ _ H11); lra).
  clear H11.
  assert (H13 : exp (0.0676586484538 / 2 ^ 15) <= 1.00000206478022193671184126069371)
    by (apply (exp_double_upper _ _ _ _ H12); lra).
  clear H12.
  assert (H14 : exp (0.0676586484538 / 2 ^ 14) <= 1.00000412956470719078858353839453)
    by (apply (exp_double_upper _ _ _ _ H13); lra).
  clear H13.
  assert (H15 : exp (0.0676586484538 / 2 ^ 13) <= 1.00000825914646768624804282024026)
    by (apply (exp_double_upper _ _ _ _ H14); lra).
  clear H14.
  assert (H16 : exp (0.0676586484538 / 2 ^ 12) <= 1.00001651836114887287077986876668)
    by (apply (exp_double_upper _ _ _ _ H15); lra).
  clear H15.
  assert (H17 : exp (0.0676586484538 / 2 ^ 11) <= 1.00003303699515400078615240499294)
    by (apply (exp_double_upper _ _ _ _ H16); lra).
  clear H16.
  assert (H18 : exp (0.0676586484538 / 2 ^ 10) <= 1.00006607508175105037777623792827)
    by (apply (exp_double_upper _ _ _ _ H17); lra).
  clear H17.
  assert (H19 : exp (0.0676586484538 / 2 ^ 9) <= 1.00013215452941852916354313322426)
    by (apply (exp_double_upper _ _ _ _ H18); lra).
  clear H18.
  assert (H20 : exp (0.0676586484538 / 2 ^ 8) <= 1.00026432652365670415997640322867)
    by (apply (exp_double_upper _ _ _ _ H19); lra).
  clear H19.
  assert (H21 : exp (0.0676586484538 / 2 ^ 7) <= 1.00052872291582451675813673011455)
    by (apply (exp_double_upper _ _ _ _ H20); lra).
  clear H20.
  assert (H22 : exp (0.0676586484538 / 2 ^ 6) <= 1.00105772537957075149530679686082)
    by (apply (exp_double_upper _ _ _ _ H21); lra).
  clear H21.
  assert (H23 : exp (0.0676586484538 / 2 ^ 5) <= 1.00211656954212009108093829587578)
    by (apply (exp_double_upper _ _ _ _ H22); lra).
  clear H22.
  assert (H24 : exp (0.0676586484538 / 2 ^ 4) <= 1.0042376189508668126138889658811)
    by (apply (exp_double_upper _ _ _ _ H23); lra).
  clear H23.
  assert (H25 : exp (0.0676586484538 / 2 ^ 3) <= 1.00849319531610637077339611295634)
    by (apply (exp_double_upper _ _ _ _ H24); lra).
  clear H24.
  assert (H26 : exp (0.0676586484538 / 2 ^ 2) <= 1.01705852499889027274215697155537)
    by (apply (exp_double_upper _ _ _ _ H25); lra).
  clear H25.
  assert (H27 : exp (0.0676586484538 / 2 ^ 1) <= 1.03440804327291830986397298111173)
    by (apply (exp_double_upper _ _ _ _ H26); lra).
  clear H26.
  assert (H28 : exp (0.0676586484538) <= 1.06999999998770763868500417905233)
    by (apply (exp_double_upper _ _ _ _ H27); lra).
  clear H27.
  exact H28.
Qed.

Lemma exp_ln107_hi_lower : 1.07000000001226067803300612472848 <= exp (0.0676586484938).
Proof.
  assert (H0 : 1 + 0.0676586484938 / 2 ^ 28 <= exp (0.0676586484938 / 2 ^ 28))
    by apply exp_ineq1_le.
  assert (H1 : 1.00000000050409621374552411684499 <= exp (0.0676586484938 / 2 ^ 27))
    by (apply (exp_double_lower _ _ _ _ H0); lra).
  assert (H2 : 1.00000000100819242774516122640255 <= exp (0.0676586484938 / 2 ^ 26))
    by (apply (exp_double_lower _ _ _ _ H1); lra).
  clear H1.
  assert (H3 : 1.00000000201638485650677442416778 <= exp (0.0676586484938 / 2 ^ 25))
    by (apply (exp_double_lower _ _ _ _ H2); lra).
  clear H2.
  assert (H4 : 1.0000000040327697170793567378854 <= exp (0.0676586484938 / 2 ^ 24))
    by (apply (exp_double_lower _ _ _ _ H3); lra).
  clear H3.
  assert (H5 : 1.00000000806553945042194506676311 <= exp (0.0676586484938 / 2 ^ 23))
    by (apply (exp_double_lower _ _ _ _ H4); lra).
  clear H4.
  assert (H6 : 1.00000001613107896589681675983895 <= exp (0.0676586484938 / 2 ^ 22))
    by (apply (exp_double_lower _ _ _ _ H5); lra).
  clear H5.
  assert (H7 : 1.00000003226215819200534212367661 <= exp (0.0676586484938 / 2 ^ 21))
    by (apply (exp_double_lower _ _ _ _ H6); lra).
  clear H6.
  assert (H8 : 1.00000006452431742485753545333062 <= exp (0.0676586484938 / 2 ^ 20))
    by (apply (exp_double_lower _ _ _ _ H7); lra).
  clear H7.
  assert (H9 : 1.00000012904863901310261005043501 <= exp (0.0676586484938 / 2 ^ 19))
    by (apply (exp_double_lower _ _ _ _ H8); lra).
  clear H8.
  assert (H10 : 1.000000258097294679756451234939 <= exp (0.0676586484938 / 2 ^ 18))
    by (apply (exp_double_lower _ _ _ _ H9); lra).
  clear H9.
  assert (H11 : 1.00000051619465597372642347891574 <= exp (0.0676586484938 / 2 ^ 17))
    by (apply (exp_double_lower _ _ _ _ H10); lra).
  clear H10.
  assert (H12 : 1.00000103238957840437570279160789 <= exp (0.0676586484938 / 2 ^ 16))
    by (apply (exp_double_lower _ _ _ _ H11); lra).
  clear H11.
  assert (H13 : 1.00000206478022263699300354782226 <= exp (0.0676586484938 / 2 ^ 15))
    by (apply (exp_double_lower _ _ _ _ H12); lra).
  clear H12.
  assert (H14 : 1.00000412956470859135379996603948 <= exp (0.0676586484938 / 2 ^ 14))
    by (apply (exp_double_lower _ _ _ _ H13); lra).
  clear H13.
  assert (H15 : 1.00000825914647048739004312490787 <= exp (0.0676586484938 / 2 ^ 13))
    by (apply (exp_double_lower _ _ _ _ H14); lra).
  clear H14.
  assert (H16 : 1.00001651836115447520105056222435 <= exp (0.0676586484938 / 2 ^ 12))
    by (apply (exp_double_lower _ _ _ _ H15); lra).
  clear H15.
  assert (H17 : 1.00003303699516520563177642131281 <= exp (0.0676586484938 / 2 ^ 11))
    by (apply (exp_double_lower _ _ _ _ H16); lra).
  clear H16.
  assert (H18 : 1.00006607508177346080937313185746 <= exp (0.0676586484938 / 2 ^ 10))
    by (apply (exp_double_lower _ _ _ _ H17); lra).
  clear H17.
  assert (H19 : 1.00013215452946335298827912126703 <= exp (0.0676586484938 / 2 ^ 9))
    by (apply (exp_double_lower _ _ _ _ H18); lra).
  clear H18.
  assert (H20 : 1.00026432652374636365679131076963 <= exp (0.0676586484938 / 2 ^ 8))
    by (apply (exp_double_lower _ _ _ _ H19); lra).
  clear H19.
  assert (H21 : 1.00052872291600388315053276502299 <= exp (0.0676586484938 / 2 ^ 7))
    by (apply (exp_double_lower _ _ _ _ H20); lra).
  clear H20.
  assert (H22 : 1.00105772537992967395034287596201 <= exp (0.0676586484938 / 2 ^ 6))
    by (apply (exp_double_lower _ _ _ _ H21); lra).
  clear H21.
  assert (H23 : 1.00211656954283869527379056190898 <= exp (0.0676586484938 / 2 ^ 5))
    by (apply (exp_double_lower _ _ _ _ H22); lra).
  clear H22.
  assert (H24 : 1.00423761895230706295108887613616 <= exp (0.0676586484938 / 2 ^ 4))
    by (apply (exp_double_lower _ _ _ _ H23); lra).
  clear H23.
  assert (H25 : 1.00849319531899907791204382910107 <= exp (0.0676586484938 / 2 ^ 3))
    by (apply (exp_double_lower _ _ _ _ H24); lra).
  clear H24.
  assert (H26 : 1.01705852500472482367290243208907 <= exp (0.0676586484938 / 2 ^ 2))
    by (apply (exp_double_lower _ _ _ _ H25); lra).
  clear H25.
  assert (H27 : 1.03440804328478646939131678405758 <= exp (0.0676586484938 / 2 ^ 1))
    by (apply (exp_double_lower _ _ _ _ H26); lra).
  clear H26.
  assert (H28 : 1.07000000001226067803300612472848 <= exp (0.0676586484938))
    by (apply (exp_double_lower _ _ _ _ H27); lra).
  clear H27.
  exact H28.
Qed.

Lemma exp_exponent_lower : 1.1098160918714782603575430969452 <= exp (0.104194318618852).
Proof.
  assert (H0 : 1 + 0.104194318618852 / 2 ^ 28 <= exp (0.104194318618852 / 2 ^ 28))
    by apply exp_ineq1_le.
  assert (H1 : 1.00000000077630816876198146616426 <= exp (0.104194318618852 / 2 ^ 27))
    by (apply (exp_double_lower _ _ _ _ H0); lra).
  assert (H2 : 1.0000000015526163381266173052151 <= exp (0.104194318618852 / 2 ^ 26))
    by (apply (exp_double_lower _ _ _ _ H1); lra).
  clear H1.
  assert (H3 : 1.0000000031052326786638521038479 <= exp (0.104194318618852 / 2 ^ 25))
    by (apply (exp_double_lower _ _ _ _ H2); lra).
  clear H2.
  assert (H4 : 1.00000000621046536697017419633768 <= exp (0.104194318618852 / 2 ^ 24))
    by (apply (exp_double_lower _ _ _ _ H3); lra).
  clear H3.
  assert (H5 : 1.00000001242093077251022846701134 <= exp (0.104194318618852 / 2 ^ 23))
    by (apply (exp_double_lower _ _ _ _ H4); lra).
  clear H4.
  assert (H6 : 1.00000002484186169929997818951422 <= exp (0.104194318618852 / 2 ^ 22))
    by (apply (exp_double_lower _ _ _ _ H5); lra).
  clear H5.
  assert (H7 : 1.00000004968372401571804906617563 <= exp (0.104194318618852 / 2 ^ 21))
    by (apply (exp_double_lower _ _ _ _ H6); lra).
  clear H6.
  assert (H8 : 1.00000009936745049990853020238968 <= exp (0.104194318618852 / 2 ^ 20))
    by (apply (exp_double_lower _ _ _ _ H7); lra).
  clear H7.
  assert (H9 : 1.00000019873491087370727925655136 <= exp (0.104194318618852 / 2 ^ 19))
    by (apply (exp_double_lower _ _ _ _ H8); lra).
  clear H8.
  assert (H10 : 1.0000003974698612429793584934785 <= exp (0.104194318618852 / 2 ^ 18))
    by (apply (exp_double_lower _ _ _ _ H9); lra).
  clear H9.
  assert (H11 : 1.00000079493988046824931350022175 <= exp (0.104194318618852 / 2 ^ 17))
    by (apply (exp_double_lower _ _ _ _ H10); lra).
  clear H10.
  assert (H12 : 1.00000158988039286591218587494988 <= exp (0.104194318618852 / 2 ^ 16))
    by (apply (exp_double_lower _ _ _ _ H11); lra).
  clear H11.
  assert (H13 : 1.00000317976331345148799121717554 <= exp (0.104194318618852 / 2 ^ 15))
    by (apply (exp_double_lower _ _ _ _ H12); lra).
  clear H12.
  assert (H14 : 1.00000635953673779770555442022174 <= exp (0.104194318618852 / 2 ^ 14))
    by (apply (exp_double_lower _ _ _ _ H13); lra).
  clear H13.
  assert (H15 : 1.0000127191139193029305075231704 <= exp (0.104194318618852 / 2 ^ 13))
    by (apply (exp_double_lower _ _ _ _ H14); lra).
  clear H14.
  assert (H16 : 1.00002543838961446475322060017134 <= exp (0.104194318618852 / 2 ^ 12))
    by (apply (exp_double_lower _ _ _ _ H15); lra).
  clear H15.
  assert (H17 : 1.00005087742634059568374941633887 <= exp (0.104194318618852 / 2 ^ 11))
    by (apply (exp_double_lower _ _ _ _ H16); lra).
  clear H16.
  assert (H18 : 1.00010175744119370241023834044382 <= exp (0.104194318618852 / 2 ^ 10))
    by (apply (exp_double_lower _ _ _ _ H17); lra).
  clear H17.
  assert (H19 : 1.00020352523696424311028088117971 <= exp (0.104194318618852 / 2 ^ 9))
    by (apply (exp_double_lower _ _ _ _ H18); lra).
  clear H18.
  assert (H20 : 1.00040709189645056757187185470493 <= exp (0.104194318618852 / 2 ^ 8))
    by (apply (exp_double_lower _ _ _ _ H19); lra).
  clear H19.
  assert (H21 : 1.00081434951671329086337413128019 <= exp (0.104194318618852 / 2 ^ 7))
    by (apply (exp_double_lower _ _ _ _ H20); lra).
  clear H20.
  assert (H22 : 1.0016293621985619528971434832361 <= exp (0.104194318618852 / 2 ^ 6))
    by (apply (exp_double_lower _ _ _ _ H21); lra).
  clear H21.
  assert (H23 : 1.00326137921829800843510660661079 <= exp (0.104194318618852 / 2 ^ 5))
    by (apply (exp_double_lower _ _ _ _ H22); lra).
  clear H22.
  assert (H24 : 1.00653339503100156299877139280743 <= exp (0.104194318618852 / 2 ^ 4))
    by (apply (exp_double_lower _ _ _ _ H23); lra).
  clear H23.
  assert (H25 : 1.01310947531263424191188059857104 <= exp (0.104194318618852 / 2 ^ 3))
    by (apply (exp_double_lower _ _ _ _ H24); lra).
  clear H24.
  assert (H26 : 1.0263908089682410504784768681778 <= exp (0.104194318618852 / 2 ^ 2))
    by (apply (exp_double_lower _ _ _ _ H25); lra).
  clear H25.
  assert (H27 : 1.0534780927344802932162360505083 <= exp (0.104194318618852 / 2 ^ 1))
    by (apply (exp_double_lower _ _ _ _ H26); lra).
  clear H26.
  assert (H28 : 1.1098160918714782603575430969452 <= exp (0.104194318618852))
    by (apply (exp_double_lower _ _ _ _ H27); lra).
  clear H27.
  exact H28.
Qed.

Lemma exp_exponent_upper : exp (0.104194318680452) <= 1.10981609198472772363990124037027.
Proof.
  assert (H0 : exp (0.104194318680452 / 2 ^ 28) <= / (1 - 0.104194318680452 / 2 ^ 28))
    by (apply exp_le_inv_1_minus; lra).
  assert (H1 : exp (0.104194318680452 / 2 ^ 27) <= 1.00000000077630816952226441802946)
    by (apply (exp_double_upper _ _ _ _ H0); lra).
  assert (H2 : exp (0.104194318680452 / 2 ^ 26) <= 1.00000000155261633964718321012593)
    by (apply (exp_double_upper _ _ _ _ H1); lra).
  clear H1.
  assert (H3 : exp (0.104194318680452 / 2 ^ 25) <= 1.00000000310523268170498391839128)
    by (apply (exp_double_upper _ _ _ _ H2); lra).
  clear H2.
  assert (H4 : exp (0.104194318680452 / 2 ^ 24) <= 1.00000000621046537305243784431129)
    by (apply (exp_double_upper _ _ _ _ H3); lra).
  clear H3.
  assert (H5 : exp (0.104194318680452 / 2 ^ 23) <= 1.00000001242093078467475583850594)
    by (apply (exp_double_upper _ _ _ _ H4); lra).
  clear H4.
  assert (H6 : exp (0.104194318680452 / 2 ^ 22) <= 1.00000002484186172362903323469293)
    by (apply (exp_double_upper _ _ _ _ H5); lra).
  clear H5.
  assert (H7 : exp (0.104194318680452 / 2 ^ 21) <= 1.00000004968372406437616036529111)
    by (apply (exp_double_upper _ _ _ _ H6); lra).
  clear H6.
  assert (H8 : exp (0.104194318680452 / 2 ^ 20) <= 1.000000099367450597224757635653)
    by (apply (exp_double_upper _ _ _ _ H7); lra).
  clear H7.
  assert (H9 : exp (0.104194318680452 / 2 ^ 19) <= 1.00000019873491106833975346320885)
    by (apply (exp_double_upper _ _ _ _ H8); lra).
  clear H8.
  assert (H10 : exp (0.104194318680452 / 2 ^ 18) <= 1.00000039746986163224438426732835)
    by (apply (exp_double_upper _ _ _ _ H9); lra).
  clear H9.
  assert (H11 : exp (0.104194318680452 / 2 ^ 17) <= 1.00000079493988124677967449015317)
    by (apply (exp_double_upper _ _ _ _ H10); lra).
  clear H10.
  assert (H12 : exp (0.104194318680452 / 2 ^ 16) <= 1.00000158988039442297414562447755)
    by (apply (exp_double_upper _ _ _ _ H11); lra).
  clear H11.
  assert (H13 : exp (0.104194318680452 / 2 ^ 15) <= 1.00000317976331656561686180079388)
    by (apply (exp_double_upper _ _ _ _ H12); lra).
  clear H12.
  assert (H14 : exp (0.104194318680452 / 2 ^ 14) <= 1.00000635953674402598309997294022)
    by (apply (exp_double_upper _ _ _ _ H13); lra).
  clear H13.
  assert (H15 : exp (0.104194318680452 / 2 ^ 13) <= 1.00001271911393175956481654837445)
    by (apply (exp_double_upper _ _ _ _ H14); lra).
  clear H14.
  assert (H16 : exp (0.104194318680452 / 2 ^ 12) <= 1.0000254383896393783387133523898)
    by (apply (exp_double_upper _ _ _ _ H15); lra).
  clear H15.
  assert (H17 : exp (0.104194318680452 / 2 ^ 11) <= 1.0000508774263904241222579103123)
    by (apply (exp_double_upper _ _ _ _ H16); lra).
  clear H16.
  assert (H18 : exp (0.104194318680452 / 2 ^ 10) <= 1.00010175744129336435754075063917)
    by (apply (exp_double_upper _ _ _ _ H17); lra).
  clear H17.
  assert (H19 : exp (0.104194318680452 / 2 ^ 9) <= 1.00020352523716358728757519525267)
    by (apply (exp_double_upper _ _ _ _ H18); lra).
  clear H18.
  assert (H20 : exp (0.104194318680452 / 2 ^ 8) <= 1.00040709189684933706960236512368)
    by (apply (exp_double_upper _ _ _ _ H19); lra).
  clear H19.
  assert (H21 : exp (0.104194318680452 / 2 ^ 7) <= 1.00081434951751115453049746664239)
    by (apply (exp_double_upper _ _ _ _ H20); lra).
  clear H20.
  assert (H22 : exp (0.104194318680452 / 2 ^ 6) <= 1.0016293622001589797111742405112)
    by (apply (exp_double_upper _ _ _ _ H21); lra).
  clear H21.
  assert (H23 : exp (0.104194318680452 / 2 ^ 5) <= 1.00326137922149726633341241474716)
    by (apply (exp_double_upper _ _ _ _ H22); lra).
  clear H22.
  assert (H24 : exp (0.104194318680452 / 2 ^ 4) <= 1.00653339503742094678184026498309)
    by (apply (exp_double_upper _ _ _ _ H23); lra).
  clear H23.
  assert (H25 : exp (0.104194318680452 / 2 ^ 3) <= 1.01310947532555689021828033978031)
    by (apply (exp_double_upper _ _ _ _ H24); lra).
  clear H24.
  assert (H26 : exp (0.104194318680452 / 2 ^ 2) <= 1.02639080899442516536933654964391)
    by (apply (exp_double_upper _ _ _ _ H25); lra).
  clear H25.
  assert (H27 : exp (0.104194318680452 / 2 ^ 1) <= 1.05347809278823056294681532874573)
    by (apply (exp_double_upper _ _ _ _ H26); lra).
  clear H26.
  assert (H28 : exp (0.104194318680452) <= 1.10981609198472772363990124037027)
    by (apply (exp_double_upper _ _ _ _ H27); lra).
  clear H27.
  exact H28.
Qed.

Lemma exp_monotone (x y : R) : x <= y -> exp x <= exp y.
Proof.
  intros [Hlt | ->]; [left; now apply exp_increasing | right; reflexivity].
Qed.

Lemma ln_107_bounds : 0.0676586484538 <= ln 1.07 <= 0.0676586484938.
Proof.
  pose proof exp_ln107_lo_upper as Hlo. pose proof exp_ln107_hi_lower as Hhi.
  assert (He : exp (ln 1.07) = 1.07) by (apply exp_ln; lra).
  split; left; apply exp_lt_inv; rewrite He; lra.
Qed.

(** C7.  [dnda_grasil] with the Milky Way graphite parameters, which is
    [dnda_gra_mwy], at the radius [a = 0.01e-6] equals the reference value
    9.6057952643298e-4 within a relative tolerance of 1e-9. *)
Theorem dnda_gra_mwy_reference_value :
  dnda_gra_mwy 0.01e-6
  = dnda_grasil 0.01e-6 9.99e-12 0.0107e-6 0.428e-6 (-1.54) (-0.165)
  /\ Rabs (dnda_grasil 0.01e-6 9.99e-12 0.0107e-6 0.428e-6 (-1.54) (-0.165)
           - 9.6057952643298e-4)
     <= 1e-9 * Rabs 9.6057952643298e-4.
Proof.
  split; [reflexivity |].
  unfold dnda_grasil, grasil_f1, grasil_f2. cbv zeta.
  destruct (Rlt_dec 0 (-0.165)) as [Hb | _]; [lra |].
  destruct (Rlt_dec 0.01e-6 0.0107e-6) as [_ | Hn]; [| lra].
  rewrite pow_positive_base by lra. unfold Rpower.
  replace (0.01e-6 / 0.0107e-6) with (/ 1.07) by lra.
  rewrite ln_Rinv by lra.
  pose proof ln_107_bounds as [Hl Hu].
  assert (HX1 : exp 0.104194318618852 <= exp (-1.54 * - ln 1.07))
    by (apply exp_monotone; lra).
  assert (HX2 : exp (-1.54 * - ln 1.07) <= exp 0.104194318680452)
    by (apply exp_monotone; lra).
  pose proof exp_exponent_lower as HL. pose proof exp_exponent_upper as HU.
  set (X := exp (-1.54 * - ln 1.07)) in *.
  assert (HXl : 1.1098160918714782603575430969452 <= X) by lra.
  assert (HXu : X <= 1.10981609198472772363990124037027) by lra.
  clear HX1 HX2 HL HU Hl Hu.
  rewrite (Rabs_pos_eq 9.6057952643298e-4) by lra.
  apply Rabs_le. split; lra.
Qed.

(** ** The cut-off on the registered ranges *)



(** ** Edge behaviour of the two factors *)

(** X1.  The cut-off factor [f2] of [dnda_grasil], for [a_c > 0], never
    exceeds 1 and is exactly 1 up to and including the transition radius:
    the test is [a < a_t], and the radius [a_t] itself takes the
    exponential branch, which gives [exp(-0)]. *)
Theorem grasil_f2_at_most_1 (a at_ ac : R) :
  0 < ac ->
  0 <= grasil_f2 a at_ ac <= 1
  /\ (a <= at_ -> grasil_f2 a at_ ac = 1).
Proof.
  intros Hac.
  assert (Hle : a <= at_ -> grasil_f2 a at_ ac = 1).
  { intros Ha. unfold grasil_f2.
    destruct (Rlt_dec a at_) as [_ | Hn]; [lra |].
    assert (a = at_) as -> by lra.
    rewrite pow_cube.
    replace (- ((at_ - at_) / ac) ^ 3) with 0 by (unfold Rdiv; ring).
    apply exp_0. }
  split; [| exact Hle].
  split; [left; apply grasil_f2_gt_0 |].
  destruct (Rle_lt_dec a at_) as [Ha | Ha]; [rewrite Hle by assumption; lra |].
  unfold grasil_f2. destruct (Rlt_dec a at_) as [Hn | _]; [lra |].
  rewrite pow_cube, <- exp_0. apply exp_monotone.
  assert (0 < (a - at_) / ac) by (apply Rdiv_lt_0_compat; lra).
  assert (0 < ((a - at_) / ac) ^ 3) by now apply pow_lt.
  lra.
Qed.

Lemma grasil_f2_at_most_1_witness :
  0 <= grasil_f2 0.164e-6 0.164e-6 0.1e-6 <= 1
  /\ (0.164e-6 <= 0.164e-6 -> grasil_f2 0.164e-6 0.164e-6 0.1e-6 = 1).
Proof. apply grasil_f2_at_most_1. lra. Defined.

(** X2.  For positive [a] and [a_t], a positive [beta] makes the factor
    [f1] at least 1, and [beta = 0], which is served by the reciprocal
    branch, makes it exactly 1. *)
Theorem grasil_f1_upturn (a at_ beta : R) :
  0 < a -> 0 < at_ ->
  (0 < beta -> 1 <= grasil_f1 a at_ beta)
  /\ (beta = 0 -> grasil_f1 a at_ beta = 1).
Proof.
  intros Ha Hat.
  assert (Hq : 0 < a / at_) by now apply Rdiv_lt_0_compat.
  split.
  - intros Hb. unfold grasil_f1.
    destruct (Rlt_dec 0 beta) as [_ | Hn]; [| lra].
    assert (0 < beta * (a / at_)) by now apply Rmult_lt_0_compat.
    unfold Rdiv in *. nra.
  - intros ->. unfold grasil_f1.
    destruct (Rlt_dec 0 0) as [Hn | _]; [lra |].
    unfold Rdiv. rewrite !Rmult_0_l.
    replace (1.0 - 0) with 1 by lra. replace 1.0 with 1 by lra.
    rewrite Rinv_1. ring.
Qed.

Lemma grasil_f1_upturn_witness :
  (0 < 0.300 -> 1 <= grasil_f1 1e-6 0.164e-6 0.300)
  /\ (0.300 = 0 -> grasil_f1 1e-6 0.164e-6 0.300 = 1).
Proof. apply grasil_f1_upturn; lra. Defined.

(** X13.  At the upper end of the registered range, [a = 10e-6], the exact
    value of the cut-off factor is under half the least positive binary64
    number for each of the four graphite and silicate tables: there the
    code's [exp] returns 0. *)
Theorem table_cutoff_rounds_to_zero :
  rounds_to_zero (grasil_f2 amax_gra 0.0107e-6 0.428e-6)
  /\ rounds_to_zero (grasil_f2 amax_sil 0.164e-6 0.1e-6)
  /\ rounds_to_zero (grasil_f2 amax_gra 0.0980e-6 0.641e-6)
  /\ rounds_to_zero (grasil_f2 amax_sil 0.184e-6 0.1e-6).
Proof.
  unfold amax_gra, amax_sil.
  repeat split; unfold grasil_f2;
    match goal with
    | |- context [Rlt_dec ?x ?y] => destruct (Rlt_dec x y); [lra |]
    end;
    rewrite pow_cube; apply exp_rounds_to_zero; lra.
Qed.
